(** * Schedule entry formatter ([scripts/extract-schedule-data.py])

    A shallow embedding of the script: the formatted string literal of
    [format_schedule_entry] is kept as the text written in the source and
    is evaluated by a small model of Python's formatted literals (brace
    escapes, replacement fields looked up among the parameters, [str]
    conversion of the value).  The [__main__] block is a sequence of
    [print] calls over an explicit standard output. *)

From Stdlib Require Import ZArith List Bool Lia.
From Stdlib Require Import Strings.String Strings.Ascii.
From Stdlib Require Import Numbers.DecimalString Numbers.DecimalZ.
Import ListNotations.
Open Scope string_scope.

(** ** Python values and their [str] conversion *)

(** The values an entry field can hold: text, an integer, or [None] for
    absent data.  A Python [str] is modelled as a Rocq [string]. *)
Inductive pyval : Type :=
| PyStr (s : string)
| PyInt (n : Z)
| PyNone.

(** [str(n)] for an integer: decimal digits, a leading minus sign for
    negative numbers. *)
Definition str_of_int (n : Z) : string :=
  NilEmpty.string_of_int (Z.to_int n).

(** [format(v, '')], what a replacement field [{v}] without format spec
    inserts: the text itself for a [str], [str(v)] otherwise. *)
Definition py_format (v : pyval) : string :=
  match v with
  | PyStr s => s
  | PyInt n => str_of_int n
  | PyNone => "None"
  end.

(** The line feed character and the one-character string holding it. *)
Definition LF : ascii := "010"%char.
Definition nl : string := String LF "".

(** [s * n] for a string [s] and a count [n]. *)
Fixpoint str_mul (s : string) (n : nat) : string :=
  match n with
  | O => ""
  | S k => s ++ str_mul s k
  end.

(** ** Exceptions and results *)

Inductive pyexc : Type :=
| NameError (name : string)
| SyntaxError.

Inductive result (A : Type) : Type :=
| Ok (a : A)
| Raise (e : pyexc).
Arguments Ok {A} a.
Arguments Raise {A} e.

Definition rbind {A B : Type} (r : result A) (k : A -> result B) : result B :=
  match r with
  | Ok a => k a
  | Raise e => Raise e
  end.

(** ** Name spaces *)

Definition namespace : Type := list (string * pyval).

Fixpoint ns_lookup (x : string) (ns : namespace) : option pyval :=
  match ns with
  | [] => None
  | (y, v) :: rest => if (x =? y)%string then Some v else ns_lookup x rest
  end.

(** A name inside a function body: the local variables first, then the
    module's globals; an unbound name raises [NameError]. *)
Definition load_name (locals globals : namespace) (x : string) : result pyval :=
  match ns_lookup x locals with
  | Some v => Ok v
  | None =>
      match ns_lookup x globals with
      | Some v => Ok v
      | None => Raise (NameError x)
      end
  end.

(** ** Formatted string literals *)

(** A formatted literal is a sequence of literal text and replacement
    fields.  Only fields that hold a plain name are modelled, which is all
    the script uses. *)
Inductive segment : Type :=
| Lit (text : string)
| Field (name : string).

Inductive fmode : Type := InText | InField.

Definition is_digit (c : ascii) : bool :=
  let n := nat_of_ascii c in ((48 <=? n) && (n <=? 57))%nat.

Definition is_name_start (c : ascii) : bool :=
  let n := nat_of_ascii c in
  (((97 <=? n) && (n <=? 122)) || ((65 <=? n) && (n <=? 90))
   || (n =? 95))%nat.

(** A name starts with a letter or an underscore and goes on with
    letters, digits and underscores. *)
Definition is_name_char (acc : string) (c : ascii) : bool :=
  match acc with
  | "" => is_name_start c
  | _ => is_name_start c || is_digit c
  end.

Definition push (c : ascii) (acc : string) : string := acc ++ String c "".

Definition emit_text (acc : string) (rest : option (list segment))
  : option (list segment) :=
  match acc with
  | "" => rest
  | _ => option_map (cons (Lit acc)) rest
  end.

(** Splitting the body of a formatted literal: a doubled brace stands for
    one brace, a single opening brace starts a replacement field that runs
    to the next closing brace, a single closing brace in text is a syntax
    error, and so is a field that is empty or is not a name.  [acc] is the
    text or the name read so far. *)
Fixpoint parse_fstring (m : fmode) (acc : string) (s : string)
  : option (list segment) :=
  match s with
  | "" =>
      match m with
      | InText => emit_text acc (Some [])
      | InField => None
      end
  | String c r =>
      match m with
      | InText =>
          if (c =? "{")%char then
            match r with
            | String c' r' =>
                if (c' =? "{")%char then parse_fstring InText (push c acc) r'
                else emit_text acc (parse_fstring InField "" r)
            | "" => None
            end
          else if (c =? "}")%char then
            match r with
            | String c' r' =>
                if (c' =? "}")%char then parse_fstring InText (push c acc) r'
                else None
            | "" => None
            end
          else parse_fstring InText (push c acc) r
      | InField =>
          if (c =? "}")%char then
            match acc with
            | "" => None
            | _ => option_map (cons (Field acc)) (parse_fstring InText "" r)
            end
          else if is_name_char acc c then
            parse_fstring InField (push c acc) r
          else None
      end
  end.

(** Evaluation, left to right: each field loads its name and inserts the
    formatted value. *)
Fixpoint eval_segments (locals globals : namespace) (segs : list segment)
  : result string :=
  match segs with
  | [] => Ok ""
  | Lit t :: rest =>
      rbind (eval_segments locals globals rest) (fun tail => Ok (t ++ tail))
  | Field x :: rest =>
      rbind (load_name locals globals x) (fun v =>
      rbind (eval_segments locals globals rest) (fun tail =>
      Ok (py_format v ++ tail)))
  end.

Definition eval_fstring (locals globals : namespace) (body : string)
  : result string :=
  match parse_fstring InText "" body with
  | Some segs => eval_segments locals globals segs
  | None => Raise SyntaxError
  end.

(** ** [format_schedule_entry] *)

(** The body of the formatted literal, as written in the source. *)
Definition entry_template : string :=
  "    {{ zoneCode: '{zone_code}', week: {week}, batch: '{batch}', date: '{date}', timeSlot: '{time_slot}', equipmentNumber: '{equipment}', orNumber: '{or_number}', deadline: '{deadline}' }},".

(** The call binds the eight parameters and returns the evaluated
    literal.  [globals] is the module name space at the time of the call. *)
Definition format_schedule_entry (globals : namespace)
  (zone_code week batch date time_slot equipment or_number deadline : pyval)
  : result string :=
  let locals :=
    [ ("zone_code", zone_code); ("week", week); ("batch", batch);
      ("date", date); ("time_slot", time_slot); ("equipment", equipment);
      ("or_number", or_number); ("deadline", deadline) ] in
  eval_fstring locals globals entry_template.

(** ** The [__main__] block *)

(** Statements run over the text written so far on standard output and
    either go on with a value or stop with an exception. *)
Definition stdout : Type := string.
Definition Py (A : Type) : Type := stdout -> stdout * result A.

Definition ret {A : Type} (a : A) : Py A := fun out => (out, Ok a).

Definition bind {A B : Type} (c : Py A) (k : A -> Py B) : Py B :=
  fun out =>
    match c out with
    | (out', Ok a) => k a out'
    | (out', Raise e) => (out', Raise e)
    end.

Definition lift {A : Type} (r : result A) : Py A := fun out => (out, r).

Notation "x <- c ;; k" := (bind c (fun x => k))
  (at level 61, c at next level, right associativity).
Notation "c ;; k" := (bind c (fun _ => k))
  (at level 61, right associativity).

(** [print(s)]: the text followed by a line feed. *)
Definition print (s : string) : Py unit :=
  fun out => (out ++ s ++ nl, Ok tt).

Definition pyval_eqb (a b : pyval) : bool :=
  match a, b with
  | PyStr s, PyStr t => (s =? t)%string
  | PyInt n, PyInt m => (n =? m)%Z
  | PyNone, PyNone => true
  | _, _ => false
  end.

(** The statements of the module after the function definition. *)
Definition script (globals : namespace) : Py unit :=
  name <- lift (load_name [] globals "__name__") ;;
  if pyval_eqb name (PyStr "__main__") then
    print "Schedule Data Formatter" ;;
    print (str_mul "=" 50) ;;
    print (nl ++ "Use this script to format schedule entries.") ;;
    print "Example:" ;;
    line <- lift (format_schedule_entry globals
                    (PyStr "MTR-01") (PyInt 45) (PyStr "A")
                    (PyStr "2024-11-02") (PyStr "SLOT_2300")
                    (PyStr "HOK-E25") (PyStr "5000355448")
                    (PyStr "16-Nov")) ;;
    print line
  else ret tt.

(** Running the file as a program: [__name__] is ['__main__'], standard
    output starts empty.  The command line is never read. *)
Definition run_program (argv : list string) : stdout * result unit :=
  script [("__name__", PyStr "__main__")] "".

(** ** Notions used by the statements *)

(** The lines of a text: every line feed ends a line; text after the last
    line feed, if any, is a last line. *)
Fixpoint split_lines_from (cur : string) (s : string) : list string :=
  match s with
  | "" => match cur with "" => [] | _ => [cur] end
  | String c r =>
      if (c =? LF)%char then cur :: split_lines_from "" r
      else split_lines_from (push c cur) r
  end.

Definition split_lines (s : string) : list string := split_lines_from "" s.



(** The closed form of the evaluated literal. *)
Definition entry_text
  (zone_code week batch date time_slot equipment or_number deadline : pyval)
  : string :=
  "    { zoneCode: '" ++ py_format zone_code ++
  "', week: " ++ py_format week ++
  ", batch: '" ++ py_format batch ++
  "', date: '" ++ py_format date ++
  "', timeSlot: '" ++ py_format time_slot ++
  "', equipmentNumber: '" ++ py_format equipment ++
  "', orNumber: '" ++ py_format or_number ++
  "', deadline: '" ++ py_format deadline ++ "' },".





(** The example line of the specification. *)
Definition example_line : string :=
  "    { zoneCode: 'MTR-01', week: 45, batch: 'A', date: '2024-11-02', timeSlot: 'SLOT_2300', equipmentNumber: 'HOK-E25', orNumber: '5000355448', deadline: '16-Nov' },".

(** A text in which the character [c] does not occur. *)
Fixpoint no_char (c : ascii) (s : string) : bool :=
  match s with
  | "" => true
  | String a r => negb (a =? c)%char && no_char c r
  end.

(** * Properties *)

(** ** Text lemmas *)

Lemma append_nil_r (s : string) : s ++ "" = s.
Proof. induction s as [|c s IH]; simpl; [reflexivity | now rewrite IH]. Qed.







(** ** The formatter in closed form *)

Lemma entry_template_segments :
  parse_fstring InText "" entry_template =
  Some [Lit "    { zoneCode: '"; Field "zone_code";
        Lit "', week: "; Field "week";
        Lit ", batch: '"; Field "batch";
        Lit "', date: '"; Field "date";
        Lit "', timeSlot: '"; Field "time_slot";
        Lit "', equipmentNumber: '"; Field "equipment";
        Lit "', orNumber: '"; Field "or_number";
        Lit "', deadline: '"; Field "deadline";
        Lit "' },"].
Proof. vm_compute. reflexivity. Qed.

Lemma format_schedule_entry_eq (globals : namespace)
  (zone_code week batch date time_slot equipment or_number deadline : pyval) :
  format_schedule_entry globals zone_code week batch date time_slot
    equipment or_number deadline
  = Ok (entry_text zone_code week batch date time_slot equipment
          or_number deadline).
Proof.
  unfold format_schedule_entry, eval_fstring.
  rewrite entry_template_segments.
  reflexivity.
Qed.



Lemma str_of_int_roundtrip (n : Z) :
  option_map Z.of_int (NilEmpty.int_of_string (str_of_int n)) = Some n.
Proof.
  unfold str_of_int. rewrite NilEmpty.isi. simpl.
  now rewrite DecimalZ.of_to.
Qed.

(** ** The example entry *)

(** C1: the call of the specification's example returns exactly the
    example line, with its four leading spaces and its trailing comma. *)
Theorem C1_example_entry (globals : namespace) :
  format_schedule_entry globals
    (PyStr "MTR-01") (PyInt 45) (PyStr "A") (PyStr "2024-11-02")
    (PyStr "SLOT_2300") (PyStr "HOK-E25") (PyStr "5000355448")
    (PyStr "16-Nov")
  = Ok "    { zoneCode: 'MTR-01', week: 45, batch: 'A', date: '2024-11-02', timeSlot: 'SLOT_2300', equipmentNumber: 'HOK-E25', orNumber: '5000355448', deadline: '16-Nov' },".
Proof. rewrite format_schedule_entry_eq. reflexivity. Qed.

(** ** Shape of the output *)




(** ** The program *)

Lemma run_program_eq (argv : list string) :
  run_program argv =
  ("Schedule Data Formatter" ++ nl ++
   str_mul "=" 50 ++ nl ++
   nl ++ "Use this script to format schedule entries." ++ nl ++
   "Example:" ++ nl ++
   example_line ++ nl,
   Ok tt).
Proof. vm_compute. reflexivity. Qed.

(** C3 fails as stated: whatever the banner line is, the lines printed
    are not the five lines of the claim; a usage line is printed between
    the blank line and the label. *)
Lemma C3_not_only_five_lines :
  ~ exists banner : string,
      split_lines (fst (run_program [])) =
      [ banner; str_mul "=" 50; ""; "Example:"; example_line ].
Proof.
  intros [banner H]. rewrite run_program_eq in H.
  apply (f_equal (@List.length string)) in H.
  vm_compute in H. discriminate H.
Qed.

(** C3, as the code has it: run with no arguments, the program ends without
    exception after printing six lines and nothing else: the banner, fifty
    equal signs, an empty line, the usage sentence, the label [Example:]
    and the example line of the specification. *)
Theorem C3_program_output :
  exists out,
    run_program [] = (out, Ok tt)
    /\ split_lines out =
         [ "Schedule Data Formatter";
           "==================================================";
           "";
           "Use this script to format schedule entries.";
           "Example:";
           "    { zoneCode: 'MTR-01', week: 45, batch: 'A', date: '2024-11-02', timeSlot: 'SLOT_2300', equipmentNumber: 'HOK-E25', orNumber: '5000355448', deadline: '16-Nov' }," ]
    /\ out = "Schedule Data Formatter" ++ nl ++
             str_mul "=" 50 ++ nl ++
             nl ++ "Use this script to format schedule entries." ++ nl ++
             "Example:" ++ nl ++
             example_line ++ nl
    /\ String.length (str_mul "=" 50) = 50.
Proof.
  eexists. split; [apply run_program_eq |].
  repeat split; vm_compute; reflexivity.
Qed.

(** ** Totality and determinism *)


(** C8: the result depends on the eight arguments only: two calls with
    the same arguments return the same text, whatever the module's name
    space holds at the time of each call. *)
Theorem C8_deterministic (globals1 globals2 : namespace)
  (zone_code week batch date time_slot equipment or_number deadline : pyval) :
  format_schedule_entry globals1 zone_code week batch date time_slot
    equipment or_number deadline
  = format_schedule_entry globals2 zone_code week batch date time_slot
      equipment or_number deadline.
Proof. now rewrite !format_schedule_entry_eq. Qed.

(** C9: two different argument tuples, which differ by quote-and-key text
    moved from one text field into the next, give the same output. *)
Theorem C9_not_injective :
  exists zc w b d ts e o dl zc' w' b' d' ts' e' o' dl' : pyval,
    (zc, w, b, d, ts, e, o, dl) <> (zc', w', b', d', ts', e', o', dl')
    /\ exists out,
         format_schedule_entry [] zc w b d ts e o dl = Ok out
         /\ format_schedule_entry [] zc' w' b' d' ts' e' o' dl' = Ok out.
Proof.
  exists (PyStr "MTR-01"), (PyInt 45), (PyStr "A', date: 'X"), (PyStr "Y"),
    (PyStr "SLOT_2300"), (PyStr "HOK-E25"), (PyStr "5000355448"),
    (PyStr "16-Nov").
  exists (PyStr "MTR-01"), (PyInt 45), (PyStr "A"), (PyStr "X', date: 'Y"),
    (PyStr "SLOT_2300"), (PyStr "HOK-E25"), (PyStr "5000355448"),
    (PyStr "16-Nov").
  split; [intros H; discriminate H |].
  eexists. split; rewrite format_schedule_entry_eq; reflexivity.
Qed.


(** ** Field values in the output *)






(** ** The guard of the [__main__] block *)

Lemma pyval_eqb_str_false (v : pyval) (s : string) :
  v <> PyStr s -> pyval_eqb v (PyStr s) = false.
Proof.
  intros Hv. destruct v as [t | n |]; simpl; try reflexivity.
  apply String.eqb_neq. intros ->. now apply Hv.
Qed.

(** X1: when the module runs under another name than [__main__] (it is
    imported), its statements print nothing and raise nothing: standard
    output is left as it is. *)
Theorem X1_import_prints_nothing (globals : namespace) (v : pyval)
  (out : stdout) :
  ns_lookup "__name__" globals = Some v ->
  v <> PyStr "__main__" ->
  script globals out = (out, Ok tt).
Proof.
  intros Hname Hv. unfold script, bind, lift, load_name.
  cbn [ns_lookup]. rewrite Hname.
  now rewrite (pyval_eqb_str_false _ _ Hv).
Qed.

Lemma X1_import_prints_nothing_witness :
  script [("__name__", PyStr "extract_schedule_data")] "already printed"
  = ("already printed", Ok tt).
Proof.
  apply (X1_import_prints_nothing
           [("__name__", PyStr "extract_schedule_data")]
           (PyStr "extract_schedule_data") "already printed").
  - reflexivity.
  - intros H. discriminate H.
Defined.



(** ** Reading the fields back *)

(** A text without [c], followed by [c], ends at the first [c]: two such
    splits of one text are the same split. *)
Lemma split_at_first (c : ascii) (s s' t t' : string) :
  no_char c s = true -> no_char c s' = true ->
  s ++ String c t = s' ++ String c t' ->
  s = s' /\ t = t'.
Proof.
  revert s'. induction s as [| a s IH]; intros [| a' s'] Hs Hs' H;
    simpl in *.
  - injection H as H. now split.
  - injection H as Hc H. subst a'.
    rewrite Ascii.eqb_refl in Hs'. discriminate Hs'.
  - injection H as Hc H. subst a.
    rewrite Ascii.eqb_refl in Hs. discriminate Hs.
  - injection H as Ha H. subst a'.
    apply andb_true_iff in Hs as [_ Hs].
    apply andb_true_iff in Hs' as [_ Hs'].
    destruct (IH s' Hs Hs' H) as [-> ->]. now split.
Qed.

Lemma no_comma_in_uint (d : Decimal.uint) :
  no_char "," (NilEmpty.string_of_uint d) = true.
Proof. induction d; simpl; auto. Qed.

(** The decimal numeral of an integer holds no comma. *)
Lemma no_comma_in_int (n : Z) : no_char "," (str_of_int n) = true.
Proof.
  unfold str_of_int. destruct (Z.to_int n) as [d | d]; simpl;
    apply no_comma_in_uint.
Qed.

Lemma str_of_int_inj (n m : Z) : str_of_int n = str_of_int m -> n = m.
Proof.
  intros H.
  assert (E : Some n = Some m)
    by now rewrite <- (str_of_int_roundtrip n), <- (str_of_int_roundtrip m), H.
  now injection E.
Qed.

Ltac strip_literal H :=
  cbn [append] in H; repeat (injection H as H).

Ltac next_field c H :=
  strip_literal H;
  apply (split_at_first c) in H;
  [| solve [assumption | apply no_comma_in_int] ..];
  let E := fresh "E" in destruct H as [E H].

(** X3: on entries whose seven text fields hold texts without a single
    quote and whose week is an integer, the formatter is injective: two
    such entries with the same output have the same eight fields. *)
Theorem X3_injective_without_quotes (globals : namespace)
  (zc b d ts e o dl zc' b' d' ts' e' o' dl' : string) (n n' : Z) :
  forallb (no_char "'") [zc; b; d; ts; e; o; dl] = true ->
  forallb (no_char "'") [zc'; b'; d'; ts'; e'; o'; dl'] = true ->
  format_schedule_entry globals (PyStr zc) (PyInt n) (PyStr b) (PyStr d)
    (PyStr ts) (PyStr e) (PyStr o) (PyStr dl)
  = format_schedule_entry globals (PyStr zc') (PyInt n') (PyStr b')
      (PyStr d') (PyStr ts') (PyStr e') (PyStr o') (PyStr dl') ->
  zc = zc' /\ n = n' /\ b = b' /\ d = d' /\ ts = ts' /\ e = e' /\ o = o'
  /\ dl = dl'.
Proof.
  intros Hq Hq' H.
  cbn [forallb] in Hq, Hq'.
  repeat match goal with
         | h : _ && _ = true |- _ => apply andb_true_iff in h as [? ?]
         end.
  rewrite !format_schedule_entry_eq in H. injection H as H.
  unfold entry_text in H. cbn [py_format] in H.
  next_field "'"%char H. next_field ","%char H.
  do 6 next_field "'"%char H.
  match goal with
  | h : str_of_int _ = str_of_int _ |- _ => apply str_of_int_inj in h
  end.
  subst. repeat split.
Qed.

Lemma X3_injective_without_quotes_witness :
  "MTR-01" = "MTR-01" /\ 45%Z = 45%Z /\ "A" = "A"
  /\ "2024-11-02" = "2024-11-02" /\ "SLOT_2300" = "SLOT_2300"
  /\ "HOK-E25" = "HOK-E25" /\ "5000355448" = "5000355448"
  /\ "16-Nov" = "16-Nov".
Proof.
  apply (X3_injective_without_quotes []
           "MTR-01" "A" "2024-11-02" "SLOT_2300" "HOK-E25" "5000355448"
           "16-Nov"
           "MTR-01" "A" "2024-11-02" "SLOT_2300" "HOK-E25" "5000355448"
           "16-Nov" 45 45); reflexivity.
Defined.

(** ** Values of another type *)


